(** * librespeed: the command-line orchestrator [librespeed/cli.py]

    A shallow embedding of [cli()] and of the data it handles.  [cli] talks to
    four collaborators that live in other modules of the package
    ([librespeed.core.get_remote_servers], [librespeed.core.do_speed_test],
    [librespeed.ping.do_icmp_ping], [librespeed.ping.order_ping_results_by_rtt])
    and to [logging] and [print].  Each such call is an event of a small
    interaction monad; an arbitrary stateful handler plays the collaborators,
    and every run records the calls made together with the answers received. *)

From Stdlib Require Import List String Ascii ZArith Bool Lia.
From Stdlib Require Import Permutation Sorting.Sorted DecimalString.
From ExtLib Require Import Structures.Monad Structures.MonadExc.
Import ListNotations.
Import MonadNotation.
Local Open Scope string_scope.
Local Open Scope monad_scope.

(** ** Data model *)

(** Exceptions that can travel through [cli].  [HttpError] is
    [librespeed.errors.HttpError], the only class [cli] names; [IndexError] is
    what Python raises for [results[0]] on an empty list, [ValueError] what
    [urlsplit] raises on a URL it refuses.  [ConnectivityError] and
    [ConfigurationError] are the error classes of the specification's
    taxonomy; any other class is [OtherError] with its name. *)
Inductive exn : Type :=
| HttpError
| IndexError
| ValueError
| ConnectivityError
| ConfigurationError
| OtherError (cls : string).

(** A Python call either returns a value or raises. *)
Inductive result (A : Type) : Type :=
| Ok (a : A)
| Raise (e : exn).
Arguments Ok {A} a.
Arguments Raise {A} e.

(** [logging.WARNING], [logging.DEBUG], [logging.INFO]. *)
Inductive log_level : Type := WARNING | DEBUG | INFO.

(** One entry of the server list: the keys ["id"], ["name"], ["server"],
    ["sponsorName"] and ["sponsorURL"] that [cli] reads; the two sponsor keys
    are read with [dict.get] and may be absent. *)
Record Server : Type := {
  srv_id : Z;
  srv_name : string;
  srv_server : string;
  srv_sponsorName : option string;
  srv_sponsorURL : option string
}.

(** Modelled from the spec: the PingSample record of the data model (the module
    [librespeed.ping] is not part of the sources at hand): host, round-trip
    time and success flag.  Times are integers in a fixed unit. *)
Record PingSample : Type := {
  ps_host : string;
  ps_rtt : Z;
  ps_success : bool
}.

(** Modelled from the spec: what the prober returns, a mapping from host to its
    ordered samples, kept as an association list in candidate-list order. *)
Definition ping_results : Type := list (string * list PingSample).

(** Modelled from the spec: the RankedServer record.  [cli] reads the host of a
    ranked entry under the key ["domain"]. *)
Record RankedServer : Type := {
  domain : string;
  latency : Z;
  sample_count : nat
}.

(** The namespace [parse_args] returns, one field per [add_argument], under
    its [dest].  [store_true] flags are booleans, options without default are
    [None] when absent, [nargs="+"] options hold a list. *)
Record Namespace : Type := {
  ipv4 : bool;
  ipv6 : bool;
  no_download : bool;
  no_upload : bool;
  no_icmp : bool;
  concurrent : Z;
  bytes : bool;
  mebibytes : bool;
  distance : string;
  share : bool;
  simple : bool;
  verbose : bool;
  csv : bool;
  csv_delimiter : string;
  csv_header : bool;
  json : bool;
  show_server_list : bool;
  server_id_allow_list : option (list Z);
  server_id_deny_list : option (list Z);
  server_json : option string;
  local_json : option string;
  source : option string;
  timeout : Z;
  duration : Z;
  chunk : Z;
  upload_size : Z;
  force_https : bool;
  skip_cert_verify : bool;
  no_pre_allocate : bool;
  telemetry_json : option string;
  telemetry_level : option string;
  telemetry_server : option string;
  telemetry_path : option string;
  telemetry_share : option string;
  telemetry_extra : option string
}.

(** The namespace of an empty command line: every default of [parse_args].
    ([upload_size] is a float in the source; [cli] never reads it, and it is
    kept here as the integer number of KiB.) *)
Definition default_args : Namespace := {|
  ipv4 := false; ipv6 := false; no_download := false; no_upload := false;
  no_icmp := false; concurrent := 3; bytes := false; mebibytes := false;
  distance := "km"; share := false; simple := false; verbose := false;
  csv := false; csv_delimiter := ","; csv_header := false; json := false;
  show_server_list := false;
  server_id_allow_list := None; server_id_deny_list := None;
  server_json := None; local_json := None; source := None;
  timeout := 15; duration := 15; chunk := 100; upload_size := 1024;
  force_https := false; skip_cert_verify := false; no_pre_allocate := false;
  telemetry_json := None; telemetry_level := None; telemetry_server := None;
  telemetry_path := None; telemetry_share := None; telemetry_extra := None
|}.

(** Namespaces that differ from another in one option. *)
Definition with_no_download (v : bool) (args : Namespace) : Namespace :=
  {| ipv4 := ipv4 args; ipv6 := ipv6 args; no_download := v;
     no_upload := no_upload args; no_icmp := no_icmp args;
     concurrent := concurrent args; bytes := bytes args;
     mebibytes := mebibytes args; distance := distance args;
     share := share args; simple := simple args; verbose := verbose args;
     csv := csv args; csv_delimiter := csv_delimiter args;
     csv_header := csv_header args; json := json args;
     show_server_list := show_server_list args;
     server_id_allow_list := server_id_allow_list args;
     server_id_deny_list := server_id_deny_list args;
     server_json := server_json args; local_json := local_json args;
     source := source args; timeout := timeout args;
     duration := duration args; chunk := chunk args;
     upload_size := upload_size args; force_https := force_https args;
     skip_cert_verify := skip_cert_verify args;
     no_pre_allocate := no_pre_allocate args;
     telemetry_json := telemetry_json args;
     telemetry_level := telemetry_level args;
     telemetry_server := telemetry_server args;
     telemetry_path := telemetry_path args;
     telemetry_share := telemetry_share args;
     telemetry_extra := telemetry_extra args |}.

Definition with_no_upload (v : bool) (args : Namespace) : Namespace :=
  {| ipv4 := ipv4 args; ipv6 := ipv6 args; no_download := no_download args;
     no_upload := v; no_icmp := no_icmp args; concurrent := concurrent args;
     bytes := bytes args; mebibytes := mebibytes args;
     distance := distance args; share := share args; simple := simple args;
     verbose := verbose args; csv := csv args;
     csv_delimiter := csv_delimiter args; csv_header := csv_header args;
     json := json args; show_server_list := show_server_list args;
     server_id_allow_list := server_id_allow_list args;
     server_id_deny_list := server_id_deny_list args;
     server_json := server_json args; local_json := local_json args;
     source := source args; timeout := timeout args;
     duration := duration args; chunk := chunk args;
     upload_size := upload_size args; force_https := force_https args;
     skip_cert_verify := skip_cert_verify args;
     no_pre_allocate := no_pre_allocate args;
     telemetry_json := telemetry_json args;
     telemetry_level := telemetry_level args;
     telemetry_server := telemetry_server args;
     telemetry_path := telemetry_path args;
     telemetry_share := telemetry_share args;
     telemetry_extra := telemetry_extra args |}.

Definition with_show_server_list (v : bool) (args : Namespace) : Namespace :=
  {| ipv4 := ipv4 args; ipv6 := ipv6 args; no_download := no_download args;
     no_upload := no_upload args; no_icmp := no_icmp args;
     concurrent := concurrent args; bytes := bytes args;
     mebibytes := mebibytes args; distance := distance args;
     share := share args; simple := simple args; verbose := verbose args;
     csv := csv args; csv_delimiter := csv_delimiter args;
     csv_header := csv_header args; json := json args; show_server_list := v;
     server_id_allow_list := server_id_allow_list args;
     server_id_deny_list := server_id_deny_list args;
     server_json := server_json args; local_json := local_json args;
     source := source args; timeout := timeout args;
     duration := duration args; chunk := chunk args;
     upload_size := upload_size args; force_https := force_https args;
     skip_cert_verify := skip_cert_verify args;
     no_pre_allocate := no_pre_allocate args;
     telemetry_json := telemetry_json args;
     telemetry_level := telemetry_level args;
     telemetry_server := telemetry_server args;
     telemetry_path := telemetry_path args;
     telemetry_share := telemetry_share args;
     telemetry_extra := telemetry_extra args |}.

Definition with_server_id_allow_list (v : option (list Z)) (args : Namespace) : Namespace :=
  {| ipv4 := ipv4 args; ipv6 := ipv6 args; no_download := no_download args;
     no_upload := no_upload args; no_icmp := no_icmp args;
     concurrent := concurrent args; bytes := bytes args;
     mebibytes := mebibytes args; distance := distance args;
     share := share args; simple := simple args; verbose := verbose args;
     csv := csv args; csv_delimiter := csv_delimiter args;
     csv_header := csv_header args; json := json args;
     show_server_list := show_server_list args; server_id_allow_list := v;
     server_id_deny_list := server_id_deny_list args;
     server_json := server_json args; local_json := local_json args;
     source := source args; timeout := timeout args;
     duration := duration args; chunk := chunk args;
     upload_size := upload_size args; force_https := force_https args;
     skip_cert_verify := skip_cert_verify args;
     no_pre_allocate := no_pre_allocate args;
     telemetry_json := telemetry_json args;
     telemetry_level := telemetry_level args;
     telemetry_server := telemetry_server args;
     telemetry_path := telemetry_path args;
     telemetry_share := telemetry_share args;
     telemetry_extra := telemetry_extra args |}.

Definition with_server_id_deny_list (v : option (list Z)) (args : Namespace) : Namespace :=
  {| ipv4 := ipv4 args; ipv6 := ipv6 args; no_download := no_download args;
     no_upload := no_upload args; no_icmp := no_icmp args;
     concurrent := concurrent args; bytes := bytes args;
     mebibytes := mebibytes args; distance := distance args;
     share := share args; simple := simple args; verbose := verbose args;
     csv := csv args; csv_delimiter := csv_delimiter args;
     csv_header := csv_header args; json := json args;
     show_server_list := show_server_list args;
     server_id_allow_list := server_id_allow_list args;
     server_id_deny_list := v; server_json := server_json args;
     local_json := local_json args; source := source args;
     timeout := timeout args; duration := duration args; chunk := chunk args;
     upload_size := upload_size args; force_https := force_https args;
     skip_cert_verify := skip_cert_verify args;
     no_pre_allocate := no_pre_allocate args;
     telemetry_json := telemetry_json args;
     telemetry_level := telemetry_level args;
     telemetry_server := telemetry_server args;
     telemetry_path := telemetry_path args;
     telemetry_share := telemetry_share args;
     telemetry_extra := telemetry_extra args |}.

Definition with_simple (v : bool) (args : Namespace) : Namespace :=
  {| ipv4 := ipv4 args; ipv6 := ipv6 args; no_download := no_download args;
     no_upload := no_upload args; no_icmp := no_icmp args;
     concurrent := concurrent args; bytes := bytes args;
     mebibytes := mebibytes args; distance := distance args;
     share := share args; simple := v; verbose := verbose args;
     csv := csv args; csv_delimiter := csv_delimiter args;
     csv_header := csv_header args; json := json args;
     show_server_list := show_server_list args;
     server_id_allow_list := server_id_allow_list args;
     server_id_deny_list := server_id_deny_list args;
     server_json := server_json args; local_json := local_json args;
     source := source args; timeout := timeout args;
     duration := duration args; chunk := chunk args;
     upload_size := upload_size args; force_https := force_https args;
     skip_cert_verify := skip_cert_verify args;
     no_pre_allocate := no_pre_allocate args;
     telemetry_json := telemetry_json args;
     telemetry_level := telemetry_level args;
     telemetry_server := telemetry_server args;
     telemetry_path := telemetry_path args;
     telemetry_share := telemetry_share args;
     telemetry_extra := telemetry_extra args |}.

Definition with_verbose (v : bool) (args : Namespace) : Namespace :=
  {| ipv4 := ipv4 args; ipv6 := ipv6 args; no_download := no_download args;
     no_upload := no_upload args; no_icmp := no_icmp args;
     concurrent := concurrent args; bytes := bytes args;
     mebibytes := mebibytes args; distance := distance args;
     share := share args; simple := simple args; verbose := v;
     csv := csv args; csv_delimiter := csv_delimiter args;
     csv_header := csv_header args; json := json args;
     show_server_list := show_server_list args;
     server_id_allow_list := server_id_allow_list args;
     server_id_deny_list := server_id_deny_list args;
     server_json := server_json args; local_json := local_json args;
     source := source args; timeout := timeout args;
     duration := duration args; chunk := chunk args;
     upload_size := upload_size args; force_https := force_https args;
     skip_cert_verify := skip_cert_verify args;
     no_pre_allocate := no_pre_allocate args;
     telemetry_json := telemetry_json args;
     telemetry_level := telemetry_level args;
     telemetry_server := telemetry_server args;
     telemetry_path := telemetry_path args;
     telemetry_share := telemetry_share args;
     telemetry_extra := telemetry_extra args |}.

Definition with_concurrent (v : Z) (args : Namespace) : Namespace :=
  {| ipv4 := ipv4 args; ipv6 := ipv6 args; no_download := no_download args;
     no_upload := no_upload args; no_icmp := no_icmp args; concurrent := v;
     bytes := bytes args; mebibytes := mebibytes args;
     distance := distance args; share := share args; simple := simple args;
     verbose := verbose args; csv := csv args;
     csv_delimiter := csv_delimiter args; csv_header := csv_header args;
     json := json args; show_server_list := show_server_list args;
     server_id_allow_list := server_id_allow_list args;
     server_id_deny_list := server_id_deny_list args;
     server_json := server_json args; local_json := local_json args;
     source := source args; timeout := timeout args;
     duration := duration args; chunk := chunk args;
     upload_size := upload_size args; force_https := force_https args;
     skip_cert_verify := skip_cert_verify args;
     no_pre_allocate := no_pre_allocate args;
     telemetry_json := telemetry_json args;
     telemetry_level := telemetry_level args;
     telemetry_server := telemetry_server args;
     telemetry_path := telemetry_path args;
     telemetry_share := telemetry_share args;
     telemetry_extra := telemetry_extra args |}.

(** The keyword arguments [**server_filters]: a dict from key to an optional
    list of server ids, as an association list in insertion order. *)
Definition kwargs : Type := list (string * option (list Z)).

(** Python truthiness of the values [cli] tests. *)
Definition truthy_ids (l : option (list Z)) : bool :=
  match l with
  | Some (_ :: _) => true
  | _ => false
  end.

Definition truthy_str (s : string) : bool :=
  match s with
  | EmptyString => false
  | _ => true
  end.

(** [str(n)] for an integer. *)
Definition str_of_int (n : Z) : string := NilZero.string_of_int (Z.to_int n).

Section Cli.

(** The result record of [do_speed_test]; [cli] only logs it. *)
Variable SpeedResults : Type.

(** [urllib.parse.urlsplit(url).netloc], from Python's standard library: the
    netloc of the URL, or the exception [urlsplit] raises on it. *)
Variable netloc : string -> result string.

(** ** Calls to the outside *)

Inductive call : Type :=
| BasicConfig (level : log_level)
| SetLevel (logger : string) (level : log_level)
| LoggerInfo (msg : string) (arg : option SpeedResults)
| Print (line : string)
| GetRemoteServers (force_https : bool) (retry : option bool) (filters : kwargs)
| DoIcmpPing (hosts : list string)
| OrderPingResultsByRtt (results : ping_results)
| DoSpeedTest (servers : list Server).

(** What each call gives back. *)
Definition response (c : call) : Type :=
  match c with
  | BasicConfig _ | SetLevel _ _ | LoggerInfo _ _ | Print _ => unit
  | GetRemoteServers _ _ _ => result (list Server)
  | DoIcmpPing _ => result ping_results
  | OrderPingResultsByRtt _ => result (list RankedServer)
  | DoSpeedTest _ => result SpeedResults
  end.

(** A program: it returns, or makes a call and goes on with the answer. *)
Inductive prog (R : Type) : Type :=
| Ret (r : R)
| Vis (c : call) (k : response c -> prog R).
Arguments Ret {R} r.
Arguments Vis {R} c k.

Fixpoint prog_bind {A B : Type} (p : prog A) (f : A -> prog B) : prog B :=
  match p with
  | Ret a => f a
  | Vis c k => Vis c (fun x => prog_bind (k x) f)
  end.

(** Python code: a program that returns or raises. *)
Definition py (A : Type) : Type := prog (result A).

#[local] Instance Monad_py : Monad py := {
  ret := fun A (a : A) => Ret (Ok a);
  bind := fun A B (m : py A) (f : A -> py B) =>
    prog_bind m (fun r => match r with
                          | Ok a => f a
                          | Raise e => Ret (Raise e)
                          end)
}.

#[local] Instance MonadExc_py : MonadExc exn py := {
  raise := fun A (e : exn) => Ret (Raise e);
  catch := fun A (body : py A) (handler : exn -> py A) =>
    prog_bind body (fun r => match r with
                             | Ok a => Ret (Ok a)
                             | Raise e => handler e
                             end)
}.

(** The collaborators as Python sees them: logging and printing return
    nothing, the four package functions return or raise. *)
Definition basicConfig (level : log_level) : py unit :=
  Vis (BasicConfig level) (fun _ => Ret (Ok tt)).
Definition setLevel (logger : string) (level : log_level) : py unit :=
  Vis (SetLevel logger level) (fun _ => Ret (Ok tt)).
Definition logger_info (msg : string) (arg : option SpeedResults) : py unit :=
  Vis (LoggerInfo msg arg) (fun _ => Ret (Ok tt)).
Definition print (line : string) : py unit :=
  Vis (Print line) (fun _ => Ret (Ok tt)).
Definition get_remote_servers (force_https : bool) (retry : option bool)
    (filters : kwargs) : py (list Server) :=
  Vis (GetRemoteServers force_https retry filters) (fun r => Ret r).
Definition do_icmp_ping (hosts : list string) : py ping_results :=
  Vis (DoIcmpPing hosts) (fun r => Ret r).
Definition order_ping_results_by_rtt (results : ping_results)
    : py (list RankedServer) :=
  Vis (OrderPingResultsByRtt results) (fun r => Ret r).
Definition do_speed_test (servers : list Server) : py SpeedResults :=
  Vis (DoSpeedTest servers) (fun r => Ret r).

(** ** [cli] *)

(** Lines 227-232. *)
Definition log_level_of (args : Namespace) : log_level :=
  if simple args then WARNING
  else if verbose args then DEBUG
  else INFO.

(** Lines 243-249. *)
Definition server_filters (args : Namespace) : kwargs :=
  if show_server_list args then []
  else [("server_allow_list", server_id_allow_list args);
        ("server_deny_list", server_id_deny_list args)].

(** Lines 251-258: the first attempt, and a second one with [retry=True]
    when the first raised [HttpError]. *)
Definition fetch_server_list (args : Namespace) : py (list Server) :=
  catch (get_remote_servers (force_https args) None (server_filters args))
        (fun e => match e with
                  | HttpError =>
                      get_remote_servers (force_https args) (Some true)
                                         (server_filters args)
                  | _ => raise e
                  end).

(** Lines 262-267: the line printed for one server. *)
Definition server_line (server : Server) : string :=
  let sponsor :=
    match srv_sponsorName server with
    | Some n => if truthy_str n then n else ""
    | None => ""
    end in
  let sponsor :=
    if truthy_str sponsor
    then match srv_sponsorURL server with
         | Some u => if truthy_str u then sponsor ++ " @ " ++ u else sponsor
         | None => sponsor
         end
    else sponsor in
  let sponsor :=
    if truthy_str sponsor then "[Sponsor: " ++ sponsor ++ "]" else sponsor in
  str_of_int (srv_id server) ++ ": " ++ srv_name server
    ++ " (" ++ srv_server server ++ ") " ++ sponsor.

(** Lines 261-267: [for server in server_list: print(...)]. *)
Fixpoint print_servers (server_list : list Server) : py unit :=
  match server_list with
  | [] => ret tt
  | server :: rest => print (server_line server) ;; print_servers rest
  end.

(** [results[0]]: the head, or [IndexError]. *)
Definition first_of {A : Type} (l : list A) : py A :=
  match l with
  | x :: _ => ret x
  | [] => raise IndexError
  end.

(** [urllib.parse.urlsplit(s["server"]).netloc]. *)
Definition netloc_of (s : Server) : result string := netloc (srv_server s).

(** Line 275: the list of the netlocs, server by server; the first URL that
    [urlsplit] refuses ends the comprehension with its exception. *)
Fixpoint netlocs (server_list : list Server) : result (list string) :=
  match server_list with
  | [] => Ok []
  | s :: rest =>
      match netloc_of s with
      | Raise e => Raise e
      | Ok d =>
          match netlocs rest with
          | Ok ds => Ok (d :: ds)
          | Raise e => Raise e
          end
      end
  end.

(** Lines 279-283: the servers whose netloc is the fastest domain, server by
    server as well. *)
Fixpoint servers_of_domain (fastest_domain : string)
    (server_list : list Server) : result (list Server) :=
  match server_list with
  | [] => Ok []
  | s :: rest =>
      match netloc_of s with
      | Raise e => Raise e
      | Ok d =>
          match servers_of_domain fastest_domain rest with
          | Ok l => Ok (if String.eqb d fastest_domain then s :: l else l)
          | Raise e => Raise e
          end
      end
  end.

(** The server is on the host [d]: its URL has a netloc, and it is [d]. *)
Definition has_netloc (d : string) (s : Server) : bool :=
  match netloc_of s with
  | Ok d' => String.eqb d' d
  | Raise _ => false
  end.

(** A value computed without a call: it is there, or its exception is
    raised. *)
Definition of_result {A : Type} (r : result A) : py A := Ret r.

(** Lines 224-285, from the point where [parse_args()] has returned [args].
    [logging.getLogger] only looks a logger up and is not a call of the
    model; a value that is returned and dropped ([do_speed_test] under an
    allow-list) is dropped here too. *)
Definition cli (args : Namespace) : py unit :=
  basicConfig (log_level_of args) ;;
  setLevel "urllib3.connectionpool" INFO ;;
  server_list <- fetch_server_list args ;;
  if show_server_list args then
    print_servers server_list
  else if truthy_ids (server_id_allow_list args) then
    _ <- do_speed_test server_list ;;
    ret tt
  else
    logger_info "Selecting the fastest server based on ping" None ;;
    hosts <- of_result (netlocs server_list) ;;
    results <- do_icmp_ping hosts ;;
    results <- order_ping_results_by_rtt results ;;
    first <- first_of results ;;
    let fastest_domain := domain first in
    fastest_servers <-
      of_result (servers_of_domain fastest_domain server_list) ;;
    results <- do_speed_test fastest_servers ;;
    logger_info "results: %s" (Some results).

(** ** Running a program against its collaborators *)

(** The outside world: a state and, for every call, the answer and the next
    state.  Nothing is assumed of it: a collaborator may answer the same call
    differently the second time. *)
Definition handler (S : Type) : Type := forall c : call, S -> response c * S.

(** One entry of a run's log: the call and the answer it got. *)
Definition interaction : Type := {c : call & response c}.

Fixpoint run {S R : Type} (h : handler S) (p : prog R) (s : S)
    : R * list interaction :=
  match p with
  | Ret r => (r, [])
  | Vis c k =>
      let (x, s') := h c s in
      let (r, t) := run h (k x) s' in
      (r, existT _ c x :: t)
  end.

Definition outcome {S R : Type} (h : handler S) (p : prog R) (s : S) : R :=
  fst (run h p s).
Definition trace {S R : Type} (h : handler S) (p : prog R) (s : S)
    : list interaction :=
  snd (run h p s).

(** The calls of a log, in order. *)
Definition calls (t : list interaction) : list call := map (@projT1 _ _) t.

(** The log entry of one printed server line. *)
Definition print_entry (server : Server) : interaction :=
  existT _ (Print (server_line server)) tt.

Definition is_fetch (c : call) : bool :=
  match c with GetRemoteServers _ _ _ => true | _ => false end.
Definition is_probe (c : call) : bool :=
  match c with DoIcmpPing _ => true | _ => false end.
Definition is_rank (c : call) : bool :=
  match c with OrderPingResultsByRtt _ => true | _ => false end.
Definition is_speed_test (c : call) : bool :=
  match c with DoSpeedTest _ => true | _ => false end.
Definition is_print (c : call) : bool :=
  match c with Print _ => true | _ => false end.
Definition is_basicConfig (c : call) : bool :=
  match c with BasicConfig _ => true | _ => false end.

(** Calls that measure something: probing, ranking, the speed test. *)
Definition is_measurement (c : call) : bool :=
  is_probe c || is_rank c || is_speed_test c.

(** Calls to the four package collaborators (not logging, not printing). *)
Definition is_collaborator (c : call) : bool :=
  is_fetch c || is_measurement c.

(** The answers the log holds, by collaborator. *)
Definition fetch_answer (i : interaction) : option (result (list Server)) :=
  match i with
  | existT _ c x =>
      match c return response c -> option (result (list Server)) with
      | GetRemoteServers _ _ _ => fun r => Some r
      | _ => fun _ => None
      end x
  end.

Definition probe_answer (i : interaction) : option (result ping_results) :=
  match i with
  | existT _ c x =>
      match c return response c -> option (result ping_results) with
      | DoIcmpPing _ => fun r => Some r
      | _ => fun _ => None
      end x
  end.

Definition rank_answer (i : interaction) : option (result (list RankedServer)) :=
  match i with
  | existT _ c x =>
      match c return response c -> option (result (list RankedServer)) with
      | OrderPingResultsByRtt _ => fun r => Some r
      | _ => fun _ => None
      end x
  end.

(** A call to the provider as the log holds it: the three arguments and the
    answer. *)
Definition fetch_of (i : interaction)
    : option (bool * option bool * kwargs * result (list Server)) :=
  match i with
  | existT _ c x =>
      match c return response c ->
                     option (bool * option bool * kwargs * result (list Server))
      with
      | GetRemoteServers fh retry kw => fun r => Some (fh, retry, kw, r)
      | _ => fun _ => None
      end x
  end.

Fixpoint answers {A : Type} (f : interaction -> option A)
    (t : list interaction) : list A :=
  match t with
  | [] => []
  | i :: t' =>
      match f i with
      | Some a => a :: answers f t'
      | None => answers f t'
      end
  end.

(** The server list [cli] went on with: the last answer of the provider, when
    it was a list. *)
Definition fetched (t : list interaction) : option (list Server) :=
  match rev (answers fetch_answer t) with
  | Ok sl :: _ => Some sl
  | _ => None
  end.

Definition probed (t : list interaction) : option ping_results :=
  match answers probe_answer t with
  | Ok pr :: _ => Some pr
  | _ => None
  end.

Definition ranked (t : list interaction) : option (list RankedServer) :=
  match answers rank_answer t with
  | Ok rs :: _ => Some rs
  | _ => None
  end.

End Cli.

Arguments BasicConfig {SpeedResults} level.
Arguments SetLevel {SpeedResults} logger level.
Arguments LoggerInfo {SpeedResults} msg arg.
Arguments Print {SpeedResults} line.
Arguments GetRemoteServers {SpeedResults} force_https retry filters.
Arguments DoIcmpPing {SpeedResults} hosts.
Arguments OrderPingResultsByRtt {SpeedResults} results.
Arguments DoSpeedTest {SpeedResults} servers.
Arguments Ret {SpeedResults R} r.
Arguments Vis {SpeedResults R} c k.
Arguments run {SpeedResults S R} h p s.
Arguments outcome {SpeedResults S R} h p s.
Arguments trace {SpeedResults S R} h p s.
Arguments calls {SpeedResults} t.
Arguments answers {SpeedResults A} f t.
Arguments fetch_of {SpeedResults} i.
Arguments fetch_answer {SpeedResults} i.
Arguments probe_answer {SpeedResults} i.
Arguments rank_answer {SpeedResults} i.
Arguments fetched {SpeedResults} t.
Arguments probed {SpeedResults} t.
Arguments ranked {SpeedResults} t.
Arguments print_servers {SpeedResults} server_list.
Arguments print_entry {SpeedResults} server.
Arguments first_of {SpeedResults A} l.
Arguments fetch_server_list {SpeedResults} args.
Arguments cli {SpeedResults} netloc args.
Arguments of_result {SpeedResults A} r.
Arguments is_fetch {SpeedResults} c.
Arguments is_probe {SpeedResults} c.
Arguments is_rank {SpeedResults} c.
Arguments is_speed_test {SpeedResults} c.
Arguments is_print {SpeedResults} c.
Arguments is_basicConfig {SpeedResults} c.
Arguments is_measurement {SpeedResults} c.
Arguments is_collaborator {SpeedResults} c.

(** ** The ranking of probed hosts *)

Module Ranker.

(** Modelled from the spec: [librespeed.ping.order_ping_results_by_rtt] is
    called by [cli] but its module is not part of the sources at hand.  The
    specification's ranker: the representative latency of a host is the
    minimum round-trip time over its successful samples; a host without a
    successful sample is left out; hosts are listed by ascending
    representative latency, and hosts of equal latency keep the order of the
    candidate list. *)
Definition successful_rtts (samples : list PingSample) : list Z :=
  map ps_rtt (filter ps_success samples).

Definition min_rtt (samples : list PingSample) : option Z :=
  match successful_rtts samples with
  | [] => None
  | x :: xs => Some (fold_left Z.min xs x)
  end.

(** The ranked entry of one host, when it has a successful sample. *)
Definition candidate (e : string * list PingSample) : option RankedServer :=
  match min_rtt (snd e) with
  | Some v => Some {| domain := fst e; latency := v;
                      sample_count := List.length (snd e) |}
  | None => None
  end.

Fixpoint candidates (m : ping_results) : list RankedServer :=
  match m with
  | [] => []
  | e :: m' =>
      match candidate e with
      | Some r => r :: candidates m'
      | None => candidates m'
      end
  end.

(** Insertion before the first entry that is not faster: an entry listed
    earlier stays ahead of its equals. *)
Fixpoint insert (r : RankedServer) (l : list RankedServer)
    : list RankedServer :=
  match l with
  | [] => [r]
  | x :: l' =>
      if (latency r <=? latency x)%Z then r :: x :: l'
      else x :: insert r l'
  end.

Definition sort (l : list RankedServer) : list RankedServer :=
  fold_right insert [] l.

Definition rank (m : ping_results) : list RankedServer :=
  sort (candidates m).

(** The hosts of the mapping that have at least one successful sample, in
    candidate-list order. *)
Definition has_success (e : string * list PingSample) : bool :=
  existsb ps_success (snd e).

Definition usable_hosts (m : ping_results) : list string :=
  map fst (filter has_success m).

(** The hosts of the mapping whose representative latency is [v], in
    candidate-list order. *)
Definition hosts_at (v : Z) (m : ping_results) : list string :=
  map fst (filter (fun e => match min_rtt (snd e) with
                            | Some w => (w =? v)%Z
                            | None => false
                            end) m).

(** The order of the ranking. *)
Definition not_slower (a b : RankedServer) : Prop :=
  (latency a <= latency b)%Z.

End Ranker.

(** ** The server-list provider *)

Module Provider.

(** Modelled from the spec: [librespeed.core.get_remote_servers] is called by
    [cli] but its module is not part of the sources at hand.  The
    specification's provider is "a simple HTTP GET + JSON parse +
    allow/deny-list filter" that "returns an ordered sequence of Server
    records" and "may raise a retryable connectivity error": of the remote
    list it keeps, in order, the servers whose id is in the allow-list, when
    one is given, and is not in the deny-list, when one is given. *)
Definition lookup_filter (key : string) (kw : kwargs) : option (list Z) :=
  match find (fun p => String.eqb (fst p) key) kw with
  | Some (_, v) => v
  | None => None
  end.

Definition mem_id (n : Z) (l : list Z) : bool := existsb (Z.eqb n) l.

Definition filter_servers (kw : kwargs) (l : list Server) : list Server :=
  let l := match lookup_filter "server_allow_list" kw with
           | Some ids => filter (fun s => mem_id (srv_id s) ids) l
           | None => l
           end in
  match lookup_filter "server_deny_list" kw with
  | Some ids => filter (fun s => negb (mem_id (srv_id s) ids)) l
  | None => l
  end.

(** Modelled from the spec: an answer of the provider over the remote list
    [remote]: the filtered list, or the retryable connectivity error, which
    in the code is [HttpError]. *)
Definition answer_as_specified (remote : list Server) (kw : kwargs)
    (r : result (list Server)) : Prop :=
  r = Ok (filter_servers kw remote) \/ r = Raise HttpError.

End Provider.

(** ** A sample world *)

Module Sample.

(** A reading of [urlsplit(url).netloc] (Python 3.12) for URLs of ASCII
    characters: leading blanks and control characters are dropped, tabs and
    line ends removed; a scheme is a letter followed by letters, digits,
    [+], [-] or [.] up to the first colon; after two slashes the netloc runs
    to the next slash, question mark or hash, and is empty without the
    slashes; a netloc with one kind of square bracket only is refused with
    [ValueError].  (A netloc with both brackets is taken as it is.) *)
Definition is_alpha (c : ascii) : bool :=
  let n := nat_of_ascii c in
  ((65 <=? n)%nat && (n <=? 90)%nat) || ((97 <=? n)%nat && (n <=? 122)%nat).

Definition is_scheme_char (c : ascii) : bool :=
  let n := nat_of_ascii c in
  is_alpha c || ((48 <=? n)%nat && (n <=? 57)%nat)
  || Ascii.eqb c "+" || Ascii.eqb c "-" || Ascii.eqb c ".".

Fixpoint lstrip_blanks (url : string) : string :=
  match url with
  | EmptyString => EmptyString
  | String c rest =>
      if (nat_of_ascii c <=? 32)%nat then lstrip_blanks rest else url
  end.

Fixpoint remove_unsafe (url : string) : string :=
  match url with
  | EmptyString => EmptyString
  | String c rest =>
      let n := nat_of_ascii c in
      if (n =? 9)%nat || (n =? 10)%nat || (n =? 13)%nat
      then remove_unsafe rest
      else String c (remove_unsafe rest)
  end.

Fixpoint after_colon (url : string) : option string :=
  match url with
  | EmptyString => None
  | String c rest =>
      if Ascii.eqb c ":" then Some rest
      else if is_scheme_char c then after_colon rest
      else None
  end.

Definition strip_scheme (url : string) : option string :=
  match url with
  | EmptyString => None
  | String c rest => if is_alpha c then after_colon rest else None
  end.

Fixpoint upto_delim (s : string) : string :=
  match s with
  | EmptyString => EmptyString
  | String c rest =>
      if Ascii.eqb c "/" || Ascii.eqb c "?" || Ascii.eqb c "#"
      then EmptyString
      else String c (upto_delim rest)
  end.

Fixpoint contains (c : ascii) (s : string) : bool :=
  match s with
  | EmptyString => false
  | String c' rest => Ascii.eqb c c' || contains c rest
  end.

Definition url_netloc (url : string) : result string :=
  let url := remove_unsafe (lstrip_blanks url) in
  let rest := match strip_scheme url with
              | Some r => r
              | None => url
              end in
  match rest with
  | String "/" (String "/" r) =>
      let n := upto_delim r in
      if xorb (contains "[" n) (contains "]" n) then Raise ValueError
      else Ok n
  | _ => Ok EmptyString
  end.

(** A world to run [cli] in: the servers the provider knows, how many times
    the provider raises [HttpError] before it answers, and the samples a probe
    of each host gives.  The speed test answers with the number of servers it
    was given. *)
Record world : Type := {
  servers : list Server;
  http_failures : nat;
  ping : string -> list PingSample
}.

(** The handler of a world; its state is the number of provider failures
    still to come. *)
Definition handle (w : world) : handler nat nat :=
  fun c =>
    match c return nat -> response nat c * nat with
    | BasicConfig _ => fun s => (tt, s)
    | SetLevel _ _ => fun s => (tt, s)
    | LoggerInfo _ _ => fun s => (tt, s)
    | Print _ => fun s => (tt, s)
    | GetRemoteServers _ _ kw => fun s =>
        match s with
        | S s' => (Raise HttpError, s')
        | O => (Ok (Provider.filter_servers kw (servers w)), O)
        end
    | DoIcmpPing hosts => fun s => (Ok (map (fun h => (h, ping w h)) hosts), s)
    | OrderPingResultsByRtt pr => fun s => (Ok (Ranker.rank pr), s)
    | DoSpeedTest l => fun s => (Ok (List.length l), s)
    end.

Definition run_cli (w : world) (args : Namespace) : result unit * list (interaction nat) :=
  run (handle w) (cli url_netloc args) (http_failures w).

Definition mk_server (n : Z) (name url : string) : Server :=
  {| srv_id := n; srv_name := name; srv_server := url;
     srv_sponsorName := None; srv_sponsorURL := None |}.

Definition sample (host : string) (rtt : Z) (ok : bool) : PingSample :=
  {| ps_host := host; ps_rtt := rtt; ps_success := ok |}.

(** Three servers on three hosts. *)
Definition server_a : Server := mk_server 1 "A" "http://a.example/backend".
Definition server_b : Server := mk_server 2 "B" "//b.example/speed".
Definition three_servers : list Server :=
  [ server_a;
    server_b;
    {| srv_id := 3; srv_name := "C"; srv_server := "https://c.example";
       srv_sponsorName := Some "Acme";
       srv_sponsorURL := Some "https://acme.example" |} ].

(** The scenario of the specification: A answers in 40, B in 25, C fails. *)
Definition ping_scenario (host : string) : list PingSample :=
  if String.eqb host "a.example" then [sample host 40 true]
  else if String.eqb host "b.example" then [sample host 25 true]
  else [sample host 0 false].

(** Every probe fails. *)
Definition ping_dead (host : string) : list PingSample :=
  [sample host 0 false; sample host 0 false].

Definition scenario_world : world :=
  {| servers := three_servers; http_failures := 0; ping := ping_scenario |}.
Definition flaky_world : world :=
  {| servers := three_servers; http_failures := 1; ping := ping_scenario |}.
Definition dead_world : world :=
  {| servers := three_servers; http_failures := 0; ping := ping_dead |}.

(** Command lines: [--list], [--server 2 1], [--server 1 --exclude 2],
    [--no-download --no-upload], [--concurrent 8]. *)
Definition list_args : Namespace := with_show_server_list true default_args.
Definition allow_args : Namespace :=
  with_server_id_allow_list (Some [2; 1]%Z) default_args.
Definition allow_deny_args : Namespace :=
  with_server_id_deny_list (Some [2%Z])
    (with_server_id_allow_list (Some [1%Z]) default_args).
Definition no_phase_args : Namespace :=
  with_no_download true (with_no_upload true default_args).
Definition tuned_args : Namespace := with_concurrent 8 default_args.

(** [-4 --no-icmp --bytes --server-json URL --local-json FILE --source IP
    --timeout 5 --skip-cert-verify --telemetry-level full]: none of the
    options [cli] reads. *)
Definition unread_args : Namespace := {|
  ipv4 := true; ipv6 := false; no_download := false; no_upload := false;
  no_icmp := true; concurrent := 3; bytes := true; mebibytes := false;
  distance := "km"; share := false; simple := false; verbose := false;
  csv := false; csv_delimiter := ","; csv_header := false; json := false;
  show_server_list := false;
  server_id_allow_list := None; server_id_deny_list := None;
  server_json := Some "https://example.org/servers.json";
  local_json := Some "servers.json"; source := Some "192.0.2.7";
  timeout := 5; duration := 15; chunk := 100; upload_size := 1024;
  force_https := false; skip_cert_verify := true; no_pre_allocate := false;
  telemetry_json := None; telemetry_level := Some "full";
  telemetry_server := None; telemetry_path := None; telemetry_share := None;
  telemetry_extra := None
|}.

(** A world whose ranker names a host that no server is on, and a world whose
    speed test raises [HttpError]. *)
Definition handle_stray (w : world) : handler nat nat :=
  fun c =>
    match c return nat -> response nat c * nat with
    | OrderPingResultsByRtt _ => fun s =>
        (Ok [{| domain := "elsewhere.example"; latency := 1;
                sample_count := 1 |}], s)
    | c' => handle w c'
    end.

Definition handle_broken_test (w : world) : handler nat nat :=
  fun c =>
    match c return nat -> response nat c * nat with
    | DoSpeedTest _ => fun s => (Raise HttpError, s)
    | c' => handle w c'
    end.

(** A server whose URL [urlsplit] refuses (a netloc with an opening bracket
    only), and a world that lists it after server A. *)
Definition server_e : Server := mk_server 5 "E" "http://[abc/x".
Definition refused_world : world :=
  {| servers := [server_a; server_e]; http_failures := 0;
     ping := ping_scenario |}.

(** A server whose sponsor has a URL but no name. *)
Definition server_d : Server :=
  {| srv_id := 4; srv_name := "D"; srv_server := "http://d.example";
     srv_sponsorName := Some "";
     srv_sponsorURL := Some "https://sponsor.example" |}.

End Sample.

(** ** What the claims speak of *)

(** The run ended in the error the specification names for "no server
    reachable at all". *)
Definition fails_with_no_reachable_server (r : result unit) : Prop :=
  r = Raise ConnectivityError.

(** The run ended in the error the specification names for mutually exclusive
    options. *)
Definition fails_with_configuration_error (r : result unit) : Prop :=
  r = Raise ConfigurationError.

Section Specified.

Variable SpeedResults : Type.
Variable S : Type.

(** What C5 asks of a run with mutually exclusive options: it ends in the
    configuration error, and no measuring call was made. *)
Definition rejected_before_measurement (r : result unit)
    (t : list (interaction SpeedResults)) : Prop :=
  fails_with_configuration_error r /\ filter is_measurement (calls t) = [].

(** Modelled from the spec: the collaborators' provider is the
    specification's provider over the remote list [remote]; every answer to
    [get_remote_servers], in any state, is the filtered list or the
    retryable connectivity error. *)
Definition provider_as_specified (h : handler SpeedResults S)
    (remote : list Server) : Prop :=
  forall fh retry kw s,
    Provider.answer_as_specified remote kw
      (fst (h (GetRemoteServers fh retry kw) s)).

End Specified.

Arguments rejected_before_measurement {SpeedResults} r t.
Arguments provider_as_specified {SpeedResults S} h remote.

(** Two namespaces that differ at most in the options [cli] never reads and
    that tune the transfer, the output format or the telemetry:
    [--concurrent], [--timeout], [--duration], [--chunk], [--upload-size],
    [--no-pre-allocate], [--source], [--skip-cert-verify], [--no-icmp],
    [--bytes], [--mebibytes], [--distance], [--share], [--csv],
    [--csv-delimiter], [--csv-header], [--json] and the [--telemetry-*]
    options.  Every other option is the same in both. *)
Definition differ_only_in_tuning (a b : Namespace) : Prop :=
  ipv4 a = ipv4 b /\ ipv6 a = ipv6 b /\
  no_download a = no_download b /\ no_upload a = no_upload b /\
  simple a = simple b /\ verbose a = verbose b /\
  show_server_list a = show_server_list b /\
  server_id_allow_list a = server_id_allow_list b /\
  server_id_deny_list a = server_id_deny_list b /\
  server_json a = server_json b /\ local_json a = local_json b /\
  force_https a = force_https b.

(** ** Reading a log *)

Section LogReading.

Variable SpeedResults : Type.

Definition is_logger_info (c : call SpeedResults) : bool :=
  match c with LoggerInfo _ _ => true | _ => false end.
Definition is_setLevel (c : call SpeedResults) : bool :=
  match c with SetLevel _ _ => true | _ => false end.

Definition speed_answer (i : interaction SpeedResults)
    : option (result SpeedResults) :=
  match i with
  | existT _ c x =>
      match c return response SpeedResults c -> option (result SpeedResults)
      with
      | DoSpeedTest _ => fun r => Some r
      | _ => fun _ => None
      end x
  end.

(** What the speed test returned, when it was called and returned. *)
Definition speed_result (t : list (interaction SpeedResults))
    : option SpeedResults :=
  match answers speed_answer t with
  | Ok r :: _ => Some r
  | _ => None
  end.

Definition error_of {A : Type} (r : result A) : option exn :=
  match r with
  | Ok _ => None
  | Raise e => Some e
  end.

(** The exception a call of the log raised, if it raised. *)
Definition raised (i : interaction SpeedResults) : option exn :=
  match i with
  | existT _ c x =>
      match c return response SpeedResults c -> option exn with
      | GetRemoteServers _ _ _ => fun r => error_of r
      | DoIcmpPing _ => fun r => error_of r
      | OrderPingResultsByRtt _ => fun r => error_of r
      | DoSpeedTest _ => fun r => error_of r
      | _ => fun _ => None
      end x
  end.

(** The exception the last call of the log raised, if it raised. *)
Fixpoint last_raised (t : list (interaction SpeedResults)) : option exn :=
  match t with
  | [] => None
  | i :: t' =>
      match t' with
      | [] => raised i
      | _ :: _ => last_raised t'
      end
  end.

End LogReading.

Arguments is_logger_info {SpeedResults} c.
Arguments is_setLevel {SpeedResults} c.
Arguments speed_answer {SpeedResults} i.
Arguments speed_result {SpeedResults} t.
Arguments raised {SpeedResults} i.
Arguments last_raised {SpeedResults} t.

(** The part of a printed line before the sponsor. *)
Definition server_line_base (server : Server) : string :=
  str_of_int (srv_id server) ++ ": " ++ srv_name server
    ++ " (" ++ srv_server server ++ ") ".

(** ** Symbolic execution of [cli] *)

Section Facts.

Variable SpeedResults : Type.
Variable netloc : string -> result string.
Variable S : Type.
Variable h : handler SpeedResults S.

(** Listing the servers prints one line each, in order, and returns. *)
Lemma run_print_servers (server_list : list Server) (s : S) :
  run h (print_servers server_list) s = (Ok tt, map print_entry server_list).
Proof.
  revert s.
  induction server_list as [| server rest IH]; intros s; simpl.
  - reflexivity.
  - destruct (h (Print (server_line server)) s) as [[] s1].
    rewrite IH. reflexivity.
Qed.

(** Printed lines hold no answer of a collaborator. *)
Lemma answers_print_entries (A : Type)
    (f : interaction SpeedResults -> option A) (l : list Server) :
  (forall server, f (print_entry server) = None) ->
  answers f (map print_entry l) = [].
Proof.
  intros Hf. induction l as [| server rest IH]; simpl.
  - reflexivity.
  - rewrite Hf. exact IH.
Qed.

Lemma calls_print_entries (l : list Server) :
  calls (map (@print_entry SpeedResults) l)
    = map (fun server => Print (server_line server)) l.
Proof.
  unfold calls. rewrite map_map. reflexivity.
Qed.

Lemma filter_prints (p : call SpeedResults -> bool) (l : list Server) :
  (forall line, p (Print line) = false) ->
  filter p (map (fun server => Print (server_line server)) l) = [].
Proof.
  intros Hp. induction l as [| server rest IH]; simpl.
  - reflexivity.
  - rewrite Hp. exact IH.
Qed.

Lemma filter_is_print_prints (l : list Server) :
  filter is_print (map (fun server => @Print SpeedResults (server_line server)) l)
    = map (fun server => Print (server_line server)) l.
Proof.
  induction l as [| server rest IH]; simpl.
  - reflexivity.
  - rewrite IH. reflexivity.
Qed.

(** The list of netlocs is there exactly when every URL has one. *)
Lemma netlocs_map (l : list Server) (hosts : list string) :
  netlocs netloc l = Ok hosts
  <-> map (fun s => netloc (srv_server s)) l = map Ok hosts.
Proof.
  revert hosts. induction l as [| x l IH]; intros hosts; simpl.
  - split.
    + intros [= <-]. reflexivity.
    + destruct hosts; [reflexivity | discriminate].
  - unfold netloc_of.
    destruct (netloc (srv_server x)) as [d | e].
    + destruct (netlocs netloc l) as [ds | e'].
      * split.
        -- intros [= <-]. simpl. f_equal. apply IH. reflexivity.
        -- destruct hosts as [| d' hosts']; [discriminate |].
           simpl. intros [= -> Hmap]. apply IH in Hmap.
           injection Hmap as ->. reflexivity.
      * split; [discriminate |].
        destruct hosts as [| d' hosts']; [discriminate |].
        simpl. intros [= _ Hmap]. apply IH in Hmap. discriminate Hmap.
    + split; [discriminate |].
      destruct hosts; discriminate.
Qed.

(** Once the first comprehension went through, so does the second. *)
Lemma servers_of_domain_ok (d : string) (l : list Server)
    (hosts : list string) :
  netlocs netloc l = Ok hosts ->
  servers_of_domain netloc d l = Ok (filter (has_netloc netloc d) l).
Proof.
  revert hosts. induction l as [| x l IH]; intros hosts; simpl.
  - reflexivity.
  - unfold has_netloc, netloc_of.
    destruct (netloc (srv_server x)) as [d' | e]; [| discriminate].
    destruct (netlocs netloc l) as [ds | e'] eqn:Hl; [| discriminate].
    intros _. rewrite (IH ds eq_refl).
    destruct (String.eqb d' d); reflexivity.
Qed.

(** One step of the execution of [cli] against [h]: the next call is answered,
    or the next test of the arguments is split. *)
Ltac answer_call :=
  match goal with
  | |- context [h ?c ?s] =>
      let x := fresh "x" in
      let s' := fresh "s" in
      destruct (h c s) as [x s']; simpl in x;
      lazymatch type of x with
      | unit => destruct x
      | _ =>
          let v := fresh "v" in
          let e := fresh "e" in
          destruct x as [v | e]; simpl;
          try match goal with
              | |- context [match e with HttpError => _ | _ => _ end] =>
                  destruct e; simpl
              end
      end;
      simpl
  end.

Ltac split_test :=
  match goal with
  | |- context [show_server_list ?a] =>
      destruct (show_server_list a) eqn:?; simpl
  | |- context [truthy_ids ?l] =>
      destruct (truthy_ids l) eqn:?; simpl
  | |- context [first_of ?l] =>
      destruct l as [| ? ?]; simpl
  | H : netlocs netloc ?l = Ok _ |- context [servers_of_domain netloc ?d ?l] =>
      rewrite (servers_of_domain_ok d l _ H); simpl
  | |- context [netlocs netloc ?l] =>
      let hosts := fresh "hosts" in
      let e := fresh "e" in
      let H := fresh "Hnetlocs" in
      destruct (netlocs netloc l) as [hosts | e] eqn:H; simpl
  | |- context [run h (print_servers ?l) ?s] =>
      rewrite (run_print_servers l s); simpl
  end.

Ltac exec_cli :=
  unfold outcome, trace, cli, fetch_server_list, of_result; simpl;
  repeat (first [answer_call | split_test]).

Ltac tidy_log :=
  simpl;
  rewrite ?calls_print_entries;
  rewrite ?filter_is_print_prints;
  rewrite ?filter_prints by reflexivity;
  rewrite ?answers_print_entries by reflexivity;
  simpl.

(** C6.  The server list is fetched with a single bounded retry.  In every run
    the provider is called either once, without [retry], and did not raise
    [HttpError]; or twice: the first call, without [retry], raised
    [HttpError], and the second, the last, passed [retry=True] with the same
    other arguments. *)
Theorem fetch_retried_once (args : Namespace) (s : S) :
  let fs := answers fetch_of (trace h (cli netloc args) s) in
  (exists r, r <> Raise HttpError /\
     fs = [(force_https args, None, server_filters args, r)]) \/
  (exists r,
     fs = [(force_https args, None, server_filters args, Raise HttpError);
           (force_https args, Some true, server_filters args, r)]).
Proof.
  exec_cli; tidy_log;
    solve [ left; eexists; split; [| reflexivity]; discriminate
          | right; eexists; reflexivity ].
Qed.

(** C9.  [--simple] wins over [--verbose] in the choice of the log level.
    The first call of every run configures logging, at WARNING when
    [--simple] is set (with or without [--verbose]), at DEBUG when only
    [--verbose] is set, at INFO when neither is; logging is not configured
    again. *)
Theorem cli_log_level (args : Namespace) (s : S) :
  exists rest,
    calls (trace h (cli netloc args) s)
      = BasicConfig (match simple args, verbose args with
                     | true, _ => WARNING
                     | false, true => DEBUG
                     | false, false => INFO
                     end) :: rest
    /\ filter is_basicConfig rest = [].
Proof.
  unfold trace, cli, log_level_of.
  destruct (simple args), (verbose args);
    exec_cli; eexists; (split; [reflexivity |]); tidy_log; reflexivity.
Qed.

(** C8.  With [--list], every call to the provider carries an empty filter
    set (neither the allow-list nor the deny-list is passed on), and the run
    is the same whatever the two lists are; no host is probed, nothing is
    ranked and no speed test runs; when the provider answers with a list, one
    line is printed per server, in order, and [cli] returns. *)
Theorem cli_list_mode (args : Namespace) (s : S) :
  show_server_list args = true ->
  let t := trace h (cli netloc args) s in
  (forall fh retry kw r,
      In (fh, retry, kw, r) (answers fetch_of t) -> kw = []) /\
  (forall allow deny,
      run h (cli netloc (with_server_id_allow_list allow
                           (with_server_id_deny_list deny args))) s
        = run h (cli netloc args) s) /\
  filter is_measurement (calls t) = [] /\
  (forall server_list,
      fetched t = Some server_list ->
      filter is_print (calls t)
        = map (fun server => Print (server_line server)) server_list /\
      outcome h (cli netloc args) s = Ok tt).
Proof.
  intros Hlist t. subst t.
  split; [| split].
  - unfold trace, cli, fetch_server_list, server_filters. rewrite Hlist.
    exec_cli; tidy_log;
      intros fh retry kw r Hin; simpl in Hin; intuition congruence.
  - intros allow deny.
    unfold cli, log_level_of, fetch_server_list, server_filters.
    simpl. rewrite Hlist. reflexivity.
  - unfold outcome, trace, cli, fetch_server_list, server_filters.
    rewrite Hlist.
    exec_cli; tidy_log;
      (split; [reflexivity |]);
      intros server_list Hf; unfold fetched in Hf; simpl in Hf;
      rewrite ?answers_print_entries in Hf by reflexivity;
      simpl in Hf; try discriminate;
      injection Hf as <-; split; reflexivity.
Qed.

(** C2.  With a non-empty allow-list no host is probed and nothing is ranked.
    Outside [--list], the allow-list is handed to the provider, and when the
    provider answers with a list the speed test is called exactly once, on
    that very list: the selected servers, in the order listed. *)
Theorem cli_allow_list (args : Namespace) (s : S) :
  truthy_ids (server_id_allow_list args) = true ->
  let t := trace h (cli netloc args) s in
  filter is_probe (calls t) = [] /\
  filter is_rank (calls t) = [] /\
  (show_server_list args = false ->
   (forall fh retry kw r,
       In (fh, retry, kw, r) (answers fetch_of t) ->
       In ("server_allow_list", server_id_allow_list args) kw) /\
   (forall server_list,
       fetched t = Some server_list ->
       filter is_speed_test (calls t) = [DoSpeedTest server_list])).
Proof.
  intros Hallow. unfold outcome, trace, cli, fetch_server_list.
  rewrite Hallow.
  exec_cli; tidy_log;
    (split; [| split]);
    try reflexivity;
    try discriminate;
    (intros _; split;
     [ intros fh retry kw r Hin; unfold server_filters in Hin;
       simpl in Hin;
       repeat match goal with
              | H : _ \/ _ |- _ => destruct H
              | H : False |- _ => destruct H
              | H : (_, _) = (_, _) |- _ => injection H as <- <- <- <-
              | H : show_server_list _ = false |- _ => rewrite H
              end; simpl; auto
     | intros server_list Hf; unfold fetched in Hf; simpl in Hf;
       try discriminate; injection Hf as <-; reflexivity ]).
Qed.

(** C7.  Without [--list] and without an allow-list, when the provider
    answers with a server list and the ranking with a non-empty list, every
    server URL of the list has a netloc, and the measuring calls of the run
    are, in this order: one probe of the netlocs of all the servers of the
    list, one ranking of what the probe returned, and one speed test, on the
    servers of the list whose netloc is the domain of the first ranked entry,
    in the order of the list. *)
Theorem cli_tests_fastest (args : Namespace) (s : S)
    (server_list : list Server) (first : RankedServer)
    (others : list RankedServer) :
  show_server_list args = false ->
  truthy_ids (server_id_allow_list args) = false ->
  let t := trace h (cli netloc args) s in
  fetched t = Some server_list ->
  ranked t = Some (first :: others) ->
  exists hosts results,
    map (fun s => netloc (srv_server s)) server_list = map Ok hosts /\
    probed t = Some results /\
    filter is_measurement (calls t)
      = [ DoIcmpPing hosts;
          OrderPingResultsByRtt results;
          DoSpeedTest
            (filter (fun s => match netloc (srv_server s) with
                              | Ok d => String.eqb d (domain first)
                              | Raise _ => false
                              end)
                    server_list) ].
Proof.
  intros Hlist Hallow. unfold outcome, trace, cli, fetch_server_list.
  rewrite Hlist, Hallow.
  exec_cli; tidy_log; unfold fetched, ranked, probed; simpl;
    intros Hf Hr; try discriminate;
    injection Hf as <-; injection Hr as <- <-;
    do 2 eexists;
    (split; [apply netlocs_map; eassumption |]);
    split; reflexivity.
Qed.

(** C1, as the code has it.  Without [--list] and without an allow-list, when
    the provider answers with a server list and the ranking with the empty
    list, the netloc of every server of the list was probed, in one call,
    what the probe returned was ranked, in one call, no speed test is called
    (no fall-back to some candidate), and the run ends in the [IndexError]
    of [results[0]]. *)
Theorem cli_no_usable_host (args : Namespace) (s : S)
    (server_list : list Server) :
  show_server_list args = false ->
  truthy_ids (server_id_allow_list args) = false ->
  let t := trace h (cli netloc args) s in
  fetched t = Some server_list ->
  ranked t = Some [] ->
  exists hosts results,
    map (fun s => netloc (srv_server s)) server_list = map Ok hosts /\
    filter is_probe (calls t) = [DoIcmpPing hosts] /\
    probed t = Some results /\
    filter is_rank (calls t) = [OrderPingResultsByRtt results] /\
    filter is_speed_test (calls t) = [] /\
    outcome h (cli netloc args) s = Raise IndexError.
Proof.
  intros Hlist Hallow. unfold outcome, trace, cli, fetch_server_list.
  rewrite Hlist, Hallow.
  exec_cli; tidy_log; unfold fetched, ranked, probed; simpl;
    intros Hf Hr; try discriminate;
    injection Hf as <-;
    do 2 eexists;
    (split; [apply netlocs_map; eassumption |]);
    repeat split; reflexivity.
Qed.

(** C4, as the code has it.  [cli] never reads [--no-download] nor
    [--no-upload]: whatever their values, it is the same program, so it
    makes the same calls, and the speed test is handed the server list and
    nothing else. *)
Theorem cli_ignores_phase_flags (args : Namespace) (d u : bool) :
  cli (SpeedResults := SpeedResults) netloc
      (with_no_download d (with_no_upload u args))
    = cli netloc args.
Proof.
  unfold cli, log_level_of, fetch_server_list, server_filters.
  unfold with_no_download, with_no_upload. simpl.
  reflexivity.
Qed.


(** [cli] reads six options only. *)
Lemma cli_reads_six_options (a b : Namespace) :
  simple a = simple b -> verbose a = verbose b ->
  show_server_list a = show_server_list b ->
  force_https a = force_https b ->
  server_id_allow_list a = server_id_allow_list b ->
  server_id_deny_list a = server_id_deny_list b ->
  cli (SpeedResults := SpeedResults) netloc a = cli netloc b.
Proof.
  intros H1 H2 H3 H4 H5 H6.
  unfold cli, log_level_of, fetch_server_list, server_filters.
  rewrite H1, H2, H3, H4, H5, H6. reflexivity.
Qed.

(** C10.  Two command lines that differ only in the tuning, output-format and
    telemetry options give the same run against any collaborators: the same
    calls with the same arguments, the same answers, the same outcome. *)
Theorem cli_tuning_noninterference (a b : Namespace) (s : S) :
  differ_only_in_tuning a b ->
  run h (cli netloc a) s = run h (cli netloc b) s.
Proof.
  intros (_ & _ & _ & _ & H1 & H2 & H3 & H5 & H6 & _ & _ & H4).
  rewrite (cli_reads_six_options a b H1 H2 H3 H4 H5 H6). reflexivity.
Qed.

(** *** Further properties of [cli] *)

Lemma last_raised_prints (i : interaction SpeedResults) (l : list Server) :
  raised i = None -> last_raised (i :: map print_entry l) = None.
Proof.
  revert i. induction l as [| server rest IH]; intros i Hi.
  - exact Hi.
  - change (last_raised (@print_entry SpeedResults server
                          :: map print_entry rest) = None).
    apply IH. reflexivity.
Qed.

Lemma last_raised_cons (i j : interaction SpeedResults)
    (t : list (interaction SpeedResults)) :
  last_raised (i :: j :: t) = last_raised (j :: t).
Proof. reflexivity. Qed.

Lemma last_raised_one (i : interaction SpeedResults) :
  last_raised [i] = raised i.
Proof. reflexivity. Qed.

#[local] Arguments last_raised {SpeedResults} t : simpl never.

Lemma not_in_prints (c : call SpeedResults) (l : list Server) :
  is_print c = false ->
  ~ In c (map (fun server => Print (server_line server)) l).
Proof.
  intros Hc Hin. apply in_map_iff in Hin. destruct Hin as (server & <- & _).
  discriminate Hc.
Qed.

(** X1.  Every run opens with the same three calls: the logging set-up, the
    [urllib3.connectionpool] logger put at INFO whatever [--verbose] and
    [--simple] say, and the first request to the provider, without [retry];
    no logger level is set afterwards. *)
Theorem cli_opening_calls (args : Namespace) (s : S) :
  exists level rest,
    calls (trace h (cli netloc args) s)
      = BasicConfig level
          :: SetLevel "urllib3.connectionpool" INFO
          :: GetRemoteServers (force_https args) None (server_filters args)
          :: rest
    /\ filter is_setLevel rest = [].
Proof.
  exec_cli; tidy_log; do 2 eexists; (split; [reflexivity |]);
    tidy_log; reflexivity.
Qed.

(** X2.  Without [--list], [cli] prints nothing: no run has a [print] call. *)
Theorem cli_prints_only_when_listing (args : Namespace) (s : S) :
  show_server_list args = false ->
  filter is_print (calls (trace h (cli netloc args) s)) = [].
Proof.
  intros Hlist. unfold trace, cli, fetch_server_list. rewrite Hlist.
  exec_cli; tidy_log; reflexivity.
Qed.

(** X3.  No run probes twice, ranks twice or runs two speed tests, and no run
    makes more than five calls to the package collaborators. *)
Theorem cli_measures_at_most_once (args : Namespace) (s : S) :
  let cs := calls (trace h (cli netloc args) s) in
  (List.length (filter is_probe cs) <= 1)%nat /\
  (List.length (filter is_rank cs) <= 1)%nat /\
  (List.length (filter is_speed_test cs) <= 1)%nat /\
  (List.length (filter is_collaborator cs) <= 5)%nat.
Proof.
  exec_cli; tidy_log; repeat split; simpl; lia.
Qed.

(** X4.  With [--list] or with a non-empty allow-list, [cli] never calls
    [logger.info]: under an allow-list the value [do_speed_test] returns is
    dropped, not logged. *)
Theorem cli_logs_nothing_when_selected (args : Namespace) (s : S) :
  show_server_list args || truthy_ids (server_id_allow_list args) = true ->
  filter is_logger_info (calls (trace h (cli netloc args) s)) = [].
Proof.
  intros Hsel. unfold trace, cli, fetch_server_list.
  destruct (show_server_list args) eqn:Hlist;
    [| simpl in Hsel; rewrite Hsel];
    exec_cli; tidy_log; reflexivity.
Qed.

(** X5.  In the automatic path (no [--list], no allow-list), when the speed test
    returns, [logger.info] is called exactly twice: the announcement of the
    selection, and the results, with the very value the speed test returned;
    [cli] then returns. *)
Theorem cli_logs_results (args : Namespace) (s : S) (results : SpeedResults) :
  show_server_list args = false ->
  truthy_ids (server_id_allow_list args) = false ->
  let t := trace h (cli netloc args) s in
  speed_result t = Some results ->
  filter is_logger_info (calls t)
    = [ LoggerInfo "Selecting the fastest server based on ping" None;
        LoggerInfo "results: %s" (Some results) ] /\
  outcome h (cli netloc args) s = Ok tt.
Proof.
  intros Hlist Hallow. unfold outcome, trace, cli, fetch_server_list.
  rewrite Hlist, Hallow.
  exec_cli; tidy_log; unfold speed_result; simpl;
    intros Hres; try discriminate;
    injection Hres as <-; split; reflexivity.
Qed.

(** X6.  [cli] returns normally exactly when, with [--list], the provider
    returned a list, and, without [--list], the speed test was called and
    returned. *)
Theorem cli_returns_iff (args : Namespace) (s : S) :
  let t := trace h (cli netloc args) s in
  outcome h (cli netloc args) s = Ok tt
  <-> if show_server_list args
      then exists server_list, fetched t = Some server_list
      else exists results, speed_result t = Some results.
Proof.
  exec_cli; tidy_log; unfold speed_result, fetched; tidy_log;
    (split;
     [ intros Hok; try discriminate; eexists; reflexivity
     | intros [x Hx]; try discriminate; reflexivity ]).
Qed.

(** X7.  [cli] fails exactly when its last call raised, with the exception
    of that call; or, with [IndexError], when the ranking came back empty;
    or, in the automatic path, when [urlsplit] refuses a server URL of the
    fetched list, with the exception of [urlsplit].  It raises nothing else
    of its own and swallows no exception of a last call. *)
Theorem cli_failure_origin (args : Namespace) (s : S) (e : exn) :
  let t := trace h (cli netloc args) s in
  outcome h (cli netloc args) s = Raise e
  <-> last_raised t = Some e
      \/ (e = IndexError /\ last_raised t = None /\ ranked t = Some [])
      \/ (show_server_list args = false /\
          truthy_ids (server_id_allow_list args) = false /\
          exists server_list,
            fetched t = Some server_list /\
            netlocs netloc server_list = Raise e).
Proof.
  exec_cli; tidy_log; unfold ranked, fetched; tidy_log;
    rewrite ?last_raised_cons;
    rewrite ?last_raised_prints by reflexivity;
    rewrite ?last_raised_one; simpl;
    (split;
     [ intros Hout; try discriminate; injection Hout as <-;
       first [ left; reflexivity
             | right; left; repeat split; reflexivity
             | right; right;
               split; [first [assumption | reflexivity] |];
               split; [first [assumption | reflexivity] |];
               eexists; split; [reflexivity | assumption] ]
     | intros [Hlast | [(He & Hlast & Hr) | (Hl & Ha & sl & Hf & Hn)]];
       try discriminate;
       try (injection Hlast as <-; reflexivity);
       try (subst e; reflexivity);
       try congruence ]).
Qed.

(** X8.  [cli] absorbs one exception only, an [HttpError] of the first
    request to the provider.  In a run at most two calls raise; when two
    raise, the first raised [HttpError] and the run fails with the exception
    of the second; when one raises, the run fails with its exception, unless
    it is the [HttpError] of the first request and the retry returned a
    list; when none raises, [cli] returns, or fails with [IndexError], or
    fails with the exception of [urlsplit] on a server URL of the fetched
    list. *)
Theorem cli_absorbs_one_http_error (args : Namespace) (s : S) :
  let t := trace h (cli netloc args) s in
  let r := outcome h (cli netloc args) s in
  let es := answers raised t in
  (List.length es <= 2)%nat /\
  (forall e1 e2, es = [e1; e2] -> e1 = HttpError /\ r = Raise e2) /\
  (forall e, es = [e] ->
     r = Raise e \/
     (e = HttpError /\
      exists server_list,
        answers fetch_answer t = [Raise HttpError; Ok server_list])) /\
  (es = [] ->
     r = Ok tt \/ r = Raise IndexError \/
     exists server_list e,
       fetched t = Some server_list /\
       netlocs netloc server_list = Raise e /\ r = Raise e).
Proof.
  exec_cli; tidy_log; unfold fetched; tidy_log;
    (split; [simpl; lia |]);
    (split; [intros e1 e2 He; try discriminate;
             injection He as <- <-; split; reflexivity |]);
    (split; [intros e1 He; try discriminate;
             injection He as <-;
             first [ left; reflexivity
                   | right; split; [reflexivity | eexists; reflexivity] ] |]);
    intros He; try discriminate;
    first [ left; reflexivity
          | right; left; reflexivity
          | right; right; do 2 eexists;
            split; [reflexivity |]; split; [eassumption | reflexivity] ].
Qed.

(** X9.  Whatever is probed or tested comes from the list the provider
    returned: a probe is a probe of the netloc of every server of that list,
    and a speed test runs on that list or on its servers of one netloc, in
    the order of the list.  No measuring call is made before a list was
    fetched. *)
Theorem cli_measures_only_fetched (args : Namespace) (s : S) :
  let t := trace h (cli netloc args) s in
  (forall hosts,
      In (DoIcmpPing hosts) (calls t) ->
      exists server_list,
        fetched t = Some server_list /\
        map (fun s => netloc (srv_server s)) server_list = map Ok hosts) /\
  (forall servers,
      In (DoSpeedTest servers) (calls t) ->
      exists server_list,
        fetched t = Some server_list /\
        (servers = server_list \/
         exists d,
           servers
             = filter (fun s => match netloc (srv_server s) with
                                | Ok d' => String.eqb d' d
                                | Raise _ => false
                                end)
                      server_list)).
Proof.
  exec_cli; tidy_log; unfold fetched; tidy_log;
    (split; intros x Hin);
    repeat match goal with
           | H : _ \/ _ |- _ => destruct H
           | H : False |- _ => destruct H
           | H : In _ (map _ _) |- _ =>
               apply not_in_prints in H; [destruct H | reflexivity]
           | H : _ = DoIcmpPing _ |- _ =>
               first [discriminate H | injection H as <-]
           | H : _ = DoSpeedTest _ |- _ =>
               first [discriminate H | injection H as <-]
           end;
    eexists; (split; [reflexivity |]);
    first [ apply netlocs_map; assumption
          | left; reflexivity
          | right; eexists; reflexivity ].
Qed.

Lemma servers_of_domain_nil (d : string) (l : list Server) :
  filter (has_netloc netloc d) l = []
  <-> ~ In (Ok d) (map (fun s => netloc (srv_server s)) l).
Proof.
  induction l as [| x l IH]; simpl.
  - split; [intros _ [] | reflexivity].
  - unfold has_netloc at 1. unfold netloc_of.
    destruct (netloc (srv_server x)) as [d' | e].
    + destruct (String.eqb_spec d' d) as [E | E].
      * split; [discriminate |].
        intros Hn; exfalso; apply Hn; left; rewrite E; reflexivity.
      * rewrite IH. split.
        -- intros Hn [Hx | Hin]; [injection Hx as Hx; exact (E Hx) |].
           exact (Hn Hin).
        -- intros Hn Hin. apply Hn. right. exact Hin.
    + rewrite IH. split.
      * intros Hn [Hx | Hin]; [discriminate Hx | exact (Hn Hin)].
      * intros Hn Hin. apply Hn. right. exact Hin.
Qed.

(** X10.  The domain of the first ranked entry is not checked against the
    server list.  In the automatic path, when the provider returns a list and
    the ranking a non-empty list, the speed test is called on the empty list
    exactly when no server of the list has the first ranked domain as its
    netloc. *)
Theorem cli_tests_nothing_on_unknown_domain (args : Namespace) (s : S)
    (server_list : list Server) (first : RankedServer)
    (others : list RankedServer) :
  show_server_list args = false ->
  truthy_ids (server_id_allow_list args) = false ->
  let t := trace h (cli netloc args) s in
  fetched t = Some server_list ->
  ranked t = Some (first :: others) ->
  filter is_speed_test (calls t) = [DoSpeedTest []]
  <-> ~ In (Ok (domain first))
           (map (fun s => netloc (srv_server s)) server_list).
Proof.
  intros Hlist Hallow. unfold outcome, trace, cli, fetch_server_list.
  rewrite Hlist, Hallow.
  exec_cli; tidy_log; unfold fetched, ranked; simpl;
    intros Hf Hr; try discriminate;
    injection Hf as <-; injection Hr as <- <-;
    rewrite <- servers_of_domain_nil;
    (split; [intros Heq; injection Heq as ->; reflexivity
            | intros ->; reflexivity]).
Qed.

(** X11.  [cli] depends on six options only: [--simple], [--verbose], [--list],
    [--secure], [--server] and [--exclude].  Two command lines that agree on
    these give the same run against any collaborators, whatever their other
    options, [-4], [-6], [--server-json] and [--local-json] included. *)
Theorem cli_depends_on_six_options (a b : Namespace) (s : S) :
  simple a = simple b ->
  verbose a = verbose b ->
  show_server_list a = show_server_list b ->
  force_https a = force_https b ->
  server_id_allow_list a = server_id_allow_list b ->
  server_id_deny_list a = server_id_deny_list b ->
  run h (cli netloc a) s = run h (cli netloc b) s.
Proof.
  intros H1 H2 H3 H4 H5 H6.
  rewrite (cli_reads_six_options a b H1 H2 H3 H4 H5 H6). reflexivity.
Qed.

Lemma netlocs_refused (before after : list Server) (bad : Server)
    (hosts : list string) (e : exn) :
  map (fun s => netloc (srv_server s)) before = map Ok hosts ->
  netloc (srv_server bad) = Raise e ->
  netlocs netloc (before ++ bad :: after)%list = Raise e.
Proof.
  revert hosts. induction before as [| x before IH]; intros hosts Hb Hbad.
  - simpl. unfold netloc_of. rewrite Hbad. reflexivity.
  - destruct hosts as [| d hosts]; [discriminate Hb |].
    simpl in Hb. injection Hb as Hx Hb.
    simpl. unfold netloc_of. rewrite Hx.
    rewrite (IH hosts Hb Hbad). reflexivity.
Qed.

(** X13.  A server URL that [urlsplit] refuses stops the automatic path
    before any measurement.  Without [--list] and without an allow-list,
    when the provider returns a list in which some server's URL is refused
    with [e] and the URLs of the servers before it are not, the run fails
    with [e] and makes no probe, no ranking and no speed test. *)
Theorem cli_fails_on_refused_url (args : Namespace) (s : S)
    (before after : list Server) (bad : Server) (hosts : list string)
    (e : exn) :
  show_server_list args = false ->
  truthy_ids (server_id_allow_list args) = false ->
  map (fun s => netloc (srv_server s)) before = map Ok hosts ->
  netloc (srv_server bad) = Raise e ->
  let t := trace h (cli netloc args) s in
  fetched t = Some (before ++ bad :: after)%list ->
  outcome h (cli netloc args) s = Raise e /\
  filter is_measurement (calls t) = [].
Proof.
  intros Hlist Hallow Hbefore Hbad.
  pose proof (netlocs_refused before after bad hosts e Hbefore Hbad) as Hn.
  unfold outcome, trace, cli, fetch_server_list.
  rewrite Hlist, Hallow.
  exec_cli; tidy_log; unfold fetched; simpl;
    intros Hf; try discriminate;
    injection Hf as ->; try congruence;
    (split; [congruence | reflexivity]).
Qed.

(** X12.  A sponsor without a name is not shown, whatever its URL: when
    ["sponsorName"] is missing or empty, the printed line is the id, the name
    and the server URL followed by one blank. *)
Theorem server_line_needs_sponsor_name (server : Server) :
  srv_sponsorName server = None \/ srv_sponsorName server = Some "" ->
  server_line server = server_line_base server.
Proof.
  intros [Hname | Hname]; unfold server_line, server_line_base;
    rewrite Hname; reflexivity.
Qed.

End Facts.

(** ** The ranker *)

Section RankerFacts.

Import Ranker.

Local Open Scope Z_scope.

Lemma fold_min_le (xs : list Z) (x : Z) :
  fold_left Z.min xs x <= x /\ Forall (Z.le (fold_left Z.min xs x)) xs.
Proof.
  revert x. induction xs as [| y ys IH]; intros x; simpl.
  - split; [lia | constructor].
  - destruct (IH (Z.min x y)) as [Hle Hall]. split; [lia |].
    constructor; [lia | exact Hall].
Qed.

Lemma fold_min_in (xs : list Z) (x : Z) :
  In (fold_left Z.min xs x) (x :: xs).
Proof.
  revert x. induction xs as [| y ys IH]; intros x; simpl.
  - left; reflexivity.
  - destruct (IH (Z.min x y)) as [H | H].
    + destruct (Z.min_spec x y) as [[_ E] | [_ E]]; rewrite E in *; auto.
    + right; right; exact H.
Qed.

(** The representative latency is the least successful round-trip time. *)
Lemma min_rtt_least (samples : list PingSample) (v : Z) :
  min_rtt samples = Some v ->
  In v (successful_rtts samples) /\ Forall (Z.le v) (successful_rtts samples).
Proof.
  unfold min_rtt. destruct (successful_rtts samples) as [| x xs]; [discriminate |].
  intros [= <-]. split.
  - apply fold_min_in.
  - destruct (fold_min_le xs x) as [Hle Hall]. constructor; assumption.
Qed.

Lemma min_rtt_has_success (e : string * list PingSample) :
  has_success e = match min_rtt (snd e) with Some _ => true | None => false end.
Proof.
  unfold has_success, min_rtt, successful_rtts.
  induction (snd e) as [| p ps IH]; simpl.
  - reflexivity.
  - destruct (ps_success p); simpl; [reflexivity | exact IH].
Qed.

Lemma candidates_hosts (m : ping_results) :
  map domain (candidates m) = usable_hosts m.
Proof.
  unfold usable_hosts.
  induction m as [| e m IH]; simpl; [reflexivity |].
  rewrite min_rtt_has_success. unfold candidate.
  destruct (min_rtt (snd e)); simpl; rewrite IH; reflexivity.
Qed.

Lemma candidates_hosts_at (v : Z) (m : ping_results) :
  map domain (filter (fun r => latency r =? v) (candidates m)) = hosts_at v m.
Proof.
  unfold hosts_at.
  induction m as [| e m IH]; simpl; [reflexivity |].
  unfold candidate.
  destruct (min_rtt (snd e)) as [w |]; simpl; [| exact IH].
  destruct (w =? v); simpl; rewrite IH; reflexivity.
Qed.

Lemma candidates_origin (m : ping_results) (r : RankedServer) :
  In r (candidates m) ->
  exists samples,
    In (domain r, samples) m /\ min_rtt samples = Some (latency r).
Proof.
  induction m as [| [host samples] m IH]; simpl; [contradiction |].
  unfold candidate; simpl.
  destruct (min_rtt samples) as [v |] eqn:Hmin.
  - intros [<- | Hin]; simpl.
    + exists samples. split; [left; reflexivity | exact Hmin].
    + destruct (IH Hin) as (x & Hx & Hv). exists x. split; [right |]; assumption.
  - intros Hin. destruct (IH Hin) as (x & Hx & Hv).
    exists x. split; [right |]; assumption.
Qed.

Lemma insert_perm (r : RankedServer) (l : list RankedServer) :
  Permutation (insert r l) (r :: l).
Proof.
  induction l as [| x l IH]; simpl.
  - apply Permutation_refl.
  - destruct (latency r <=? latency x).
    + apply Permutation_refl.
    + apply perm_trans with (x :: r :: l).
      * apply perm_skip. exact IH.
      * apply perm_swap.
Qed.

Lemma sort_perm (l : list RankedServer) : Permutation (sort l) l.
Proof.
  induction l as [| r l IH]; simpl.
  - apply perm_nil.
  - apply perm_trans with (r :: sort l).
    + apply insert_perm.
    + apply perm_skip. exact IH.
Qed.

Lemma insert_Forall (P : RankedServer -> Prop) (r : RankedServer)
    (l : list RankedServer) :
  P r -> Forall P l -> Forall P (insert r l).
Proof.
  intros Hr Hl. induction Hl as [| x l Hx Hl IH]; simpl.
  - constructor; [exact Hr | constructor].
  - destruct (latency r <=? latency x).
    + constructor; [exact Hr |]. constructor; assumption.
    + constructor; assumption.
Qed.

Lemma insert_sorted (r : RankedServer) (l : list RankedServer) :
  StronglySorted not_slower l -> StronglySorted not_slower (insert r l).
Proof.
  intros Hs. induction Hs as [| x l Hs IH Hx]; simpl.
  - constructor; constructor.
  - destruct (Z.leb_spec (latency r) (latency x)) as [Hle | Hlt].
    + constructor.
      * constructor; assumption.
      * constructor; [exact Hle |].
        eapply Forall_impl; [| exact Hx].
        unfold not_slower. intros y Hy. lia.
    + constructor; [exact IH |].
      apply insert_Forall; [unfold not_slower; lia | exact Hx].
Qed.

Lemma sort_sorted (l : list RankedServer) : StronglySorted not_slower (sort l).
Proof.
  induction l as [| r l IH]; simpl.
  - constructor.
  - apply insert_sorted. exact IH.
Qed.

(** Insertion never moves an entry past an equal one. *)
Lemma filter_insert (v : Z) (r : RankedServer) (l : list RankedServer) :
  filter (fun x => latency x =? v) (insert r l)
    = filter (fun x => latency x =? v) (r :: l).
Proof.
  induction l as [| x l IH]; simpl; [reflexivity |].
  destruct (Z.leb_spec (latency r) (latency x)) as [Hle | Hlt]; simpl.
  - reflexivity.
  - rewrite IH. simpl.
    destruct (Z.eqb_spec (latency r) v) as [Hr | Hr];
      destruct (Z.eqb_spec (latency x) v) as [Hx | Hx];
      try reflexivity.
    lia.
Qed.

Lemma filter_sort (v : Z) (l : list RankedServer) :
  filter (fun x => latency x =? v) (sort l)
    = filter (fun x => latency x =? v) l.
Proof.
  induction l as [| r l IH]; simpl; [reflexivity |].
  rewrite filter_insert. simpl. rewrite IH. reflexivity.
Qed.

(** C3.  For every mapping of hosts to samples, the hosts of the ranking are a
    permutation of the hosts with at least one successful sample; the latency
    of each ranked host is the least round-trip time of the successful
    samples of one of its entries; latencies ascend along the ranking; and
    the hosts of any one latency come in the order of the candidate list. *)
Theorem rank_sorted_stable_permutation (m : ping_results) :
  Permutation (map domain (rank m)) (usable_hosts m) /\
  (forall r, In r (rank m) ->
     exists samples,
       In (domain r, samples) m /\
       In (latency r) (successful_rtts samples) /\
       Forall (Z.le (latency r)) (successful_rtts samples)) /\
  StronglySorted (fun a b => latency a <= latency b) (rank m) /\
  (forall v,
     map domain (filter (fun r => latency r =? v) (rank m)) = hosts_at v m).
Proof.
  unfold rank. split; [| split; [| split]].
  - rewrite <- candidates_hosts. apply Permutation_map. apply sort_perm.
  - intros r H.
    apply Permutation_in with (l' := candidates m) in H; [| apply sort_perm].
    destruct (candidates_origin m r H) as (samples & Hin & Hmin).
    exists samples. split; [exact Hin |]. apply min_rtt_least. exact Hmin.
  - apply sort_sorted.
  - intros v. rewrite filter_sort. apply candidates_hosts_at.
Qed.

End RankerFacts.

(** ** The sample world, run *)

Section Runs.

Import Sample.

(** The scenario of the specification: hosts A at 40, B at 25, C failed are
    ranked B, A. *)
Example rank_scenario :
  map domain
      (Ranker.rank [ ("A", [sample "A" 40 true]);
                     ("B", [sample "B" 25 true]);
                     ("C", [sample "C" 0 false]) ])
    = ["B"; "A"].
Proof. reflexivity. Qed.

(** Equal latencies keep the order of the candidate list. *)
Example rank_ties :
  map domain
      (Ranker.rank [ ("A", [sample "A" 30 true; sample "A" 50 true]);
                     ("B", [sample "B" 9 false; sample "B" 20 true]);
                     ("C", [sample "C" 30 true]);
                     ("D", [sample "D" 20 true]) ])
    = ["B"; "D"; "A"; "C"].
Proof. reflexivity. Qed.

(** A run with [--no-download --no-upload]: the speed test is called as in a
    run without the two flags. *)
Example run_no_phase_flags :
  run_cli scenario_world no_phase_args = run_cli scenario_world default_args
  /\ filter is_speed_test (calls (snd (run_cli scenario_world no_phase_args)))
     = [DoSpeedTest [server_b]].
Proof. split; reflexivity. Qed.

(** The provider fails once with [HttpError]: two calls, the second with
    [retry=True]. *)
Example run_flaky :
  answers fetch_of (snd (run_cli flaky_world default_args))
    = [ (false, None,
         [("server_allow_list", None); ("server_deny_list", None)],
         Raise HttpError);
        (false, Some true,
         [("server_allow_list", None); ("server_deny_list", None)],
         Ok three_servers) ].
Proof. reflexivity. Qed.

(** C8 at [--list] in the sample world. *)
Lemma cli_list_mode_witness :
  let t := trace (handle scenario_world) (cli url_netloc list_args) 0%nat in
  (show_server_list list_args = true /\ fetched t = Some three_servers) /\
  (forall fh retry kw r,
      In (fh, retry, kw, r) (answers fetch_of t) -> kw = []) /\
  (forall allow deny,
      run (handle scenario_world)
          (cli url_netloc (with_server_id_allow_list allow
                             (with_server_id_deny_list deny list_args))) 0%nat
        = run (handle scenario_world) (cli url_netloc list_args) 0%nat) /\
  filter is_measurement (calls t) = [] /\
  (forall server_list,
      fetched t = Some server_list ->
      filter is_print (calls t)
        = map (fun server => Print (server_line server)) server_list /\
      outcome (handle scenario_world) (cli url_netloc list_args) 0%nat = Ok tt).
Proof.
  split; [split; reflexivity |].
  exact (cli_list_mode nat url_netloc nat (handle scenario_world)
           list_args 0%nat eq_refl).
Defined.

(** C2 at [--server 2 1] in the sample world. *)
Lemma cli_allow_list_witness :
  let t := trace (handle scenario_world) (cli url_netloc allow_args) 0%nat in
  (truthy_ids (server_id_allow_list allow_args) = true /\
   show_server_list allow_args = false /\
   fetched t = Some [server_a; server_b]) /\
  filter is_probe (calls t) = [] /\
  filter is_rank (calls t) = [] /\
  (show_server_list allow_args = false ->
   (forall fh retry kw r,
       In (fh, retry, kw, r) (answers fetch_of t) ->
       In ("server_allow_list", server_id_allow_list allow_args) kw) /\
   (forall server_list,
       fetched t = Some server_list ->
       filter is_speed_test (calls t) = [DoSpeedTest server_list])).
Proof.
  split; [repeat split; reflexivity |].
  exact (cli_allow_list nat url_netloc nat (handle scenario_world)
           allow_args 0%nat eq_refl).
Defined.

(** C7 in the sample world: B is the fastest host. *)
Lemma cli_tests_fastest_witness :
  let t := trace (handle scenario_world) (cli url_netloc default_args) 0%nat in
  filter is_probe (calls t)
    = [DoIcmpPing ["a.example"; "b.example"; "c.example"]] /\
  exists hosts results,
    map (fun s => url_netloc (srv_server s)) three_servers = map Ok hosts /\
    probed t = Some results /\
    filter is_measurement (calls t)
      = [ DoIcmpPing hosts;
          OrderPingResultsByRtt results;
          DoSpeedTest [server_b] ].
Proof.
  split; [reflexivity |].
  exact (cli_tests_fastest nat url_netloc nat (handle scenario_world)
           default_args 0%nat three_servers
           {| domain := "b.example"; latency := 25; sample_count := 1 |}
           [{| domain := "a.example"; latency := 40; sample_count := 1 |}]
           eq_refl eq_refl eq_refl eq_refl).
Defined.

(** C1 as amended, in the world where every probe fails. *)
Lemma cli_no_usable_host_witness :
  let t := trace (handle dead_world) (cli url_netloc default_args) 0%nat in
  filter is_probe (calls t)
    = [DoIcmpPing ["a.example"; "b.example"; "c.example"]] /\
  exists hosts results,
    map (fun s => url_netloc (srv_server s)) three_servers = map Ok hosts /\
    filter is_probe (calls t) = [DoIcmpPing hosts] /\
    probed t = Some results /\
    filter is_rank (calls t) = [OrderPingResultsByRtt results] /\
    filter is_speed_test (calls t) = [] /\
    outcome (handle dead_world) (cli url_netloc default_args) 0%nat
      = Raise IndexError.
Proof.
  split; [reflexivity |].
  exact (cli_no_usable_host nat url_netloc nat (handle dead_world)
           default_args 0%nat three_servers
           eq_refl eq_refl eq_refl eq_refl).
Defined.

(** C1 as stated fails: every probe fails, the ranking is empty, and the run
    ends in [IndexError], which is not the error of "no reachable server". *)
Lemma cli_no_usable_host_counterexample :
  let r := run_cli dead_world default_args in
  option_map Ranker.usable_hosts (probed (snd r)) = Some [] /\
  ranked (snd r) = Some [] /\
  fst r = Raise IndexError /\
  ~ fails_with_no_reachable_server (fst r).
Proof.
  repeat split; try reflexivity.
  unfold fails_with_no_reachable_server. cbv. discriminate.
Qed.

(** The provider of the sample world is the specification's. *)
Lemma sample_provider_as_specified (w : world) :
  provider_as_specified (handle w) (servers w).
Proof.
  intros fh retry kw s. unfold Provider.answer_as_specified.
  destruct s; simpl; [left | right]; reflexivity.
Qed.


(** C10 at [--concurrent 8] against the defaults. *)
Lemma cli_tuning_noninterference_witness :
  differ_only_in_tuning tuned_args default_args /\
  concurrent tuned_args <> concurrent default_args /\
  run (handle scenario_world) (cli url_netloc tuned_args) 0%nat
    = run (handle scenario_world) (cli url_netloc default_args) 0%nat.
Proof.
  assert (H : differ_only_in_tuning tuned_args default_args).
  { repeat split. }
  split; [exact H |]. split; [discriminate |].
  exact (cli_tuning_noninterference nat url_netloc nat
           (handle scenario_world) tuned_args default_args 0%nat H).
Defined.

(** The speed test raises [HttpError]: it is not retried, and the run fails
    with it. *)
Example run_broken_test :
  let r := run (handle_broken_test scenario_world)
               (cli url_netloc default_args) 0%nat in
  fst r = Raise HttpError /\
  answers raised (snd r) = [HttpError] /\
  List.length (filter is_speed_test (calls (snd r))) = 1%nat.
Proof. repeat split. Qed.

(** X2 at the defaults in the sample world. *)
Lemma cli_prints_only_when_listing_witness :
  show_server_list default_args = false /\
  filter is_print
    (calls (trace (handle scenario_world) (cli url_netloc default_args) 0%nat))
    = [].
Proof.
  split; [reflexivity |].
  exact (cli_prints_only_when_listing nat url_netloc nat
           (handle scenario_world) default_args 0%nat eq_refl).
Defined.

(** X4 at [--server 2 1]: the speed test returned, nothing was logged. *)
Lemma cli_logs_nothing_when_selected_witness :
  let t := trace (handle scenario_world) (cli url_netloc allow_args) 0%nat in
  speed_result t = Some 2%nat /\
  filter is_logger_info (calls t) = [].
Proof.
  split; [reflexivity |].
  exact (cli_logs_nothing_when_selected nat url_netloc nat
           (handle scenario_world) allow_args 0%nat eq_refl).
Defined.

(** X5 at the defaults in the sample world. *)
Lemma cli_logs_results_witness :
  let t := trace (handle scenario_world) (cli url_netloc default_args) 0%nat in
  filter is_logger_info (calls t)
    = [ LoggerInfo "Selecting the fastest server based on ping" None;
        LoggerInfo "results: %s" (Some 1%nat) ] /\
  outcome (handle scenario_world) (cli url_netloc default_args) 0%nat = Ok tt.
Proof.
  exact (cli_logs_results nat url_netloc nat (handle scenario_world)
           default_args 0%nat 1%nat eq_refl eq_refl eq_refl).
Defined.

(** X10 in the world whose ranker names a host no server is on. *)
Lemma cli_tests_nothing_on_unknown_domain_witness :
  let t := trace (handle_stray scenario_world)
                 (cli url_netloc default_args) 0%nat in
  ~ In (Ok "elsewhere.example")
       (map (fun s => url_netloc (srv_server s)) three_servers) /\
  filter is_speed_test (calls t) = [DoSpeedTest []].
Proof.
  assert (Hout : ~ In (Ok "elsewhere.example")
                      (map (fun s => url_netloc (srv_server s)) three_servers)).
  { simpl. intros [H | [H | [H | []]]]; discriminate H. }
  split; [exact Hout |].
  exact (proj2 (cli_tests_nothing_on_unknown_domain nat url_netloc nat
                  (handle_stray scenario_world) default_args 0%nat
                  three_servers
                  {| domain := "elsewhere.example"; latency := 1;
                     sample_count := 1 |} []
                  eq_refl eq_refl eq_refl eq_refl) Hout).
Defined.

(** X11: a command line with none of the six options against the defaults. *)
Lemma cli_depends_on_six_options_witness :
  ipv4 unread_args <> ipv4 default_args /\
  server_json unread_args <> server_json default_args /\
  run (handle scenario_world) (cli url_netloc unread_args) 0%nat
    = run (handle scenario_world) (cli url_netloc default_args) 0%nat.
Proof.
  split; [discriminate |]. split; [discriminate |].
  exact (cli_depends_on_six_options nat url_netloc nat
           (handle scenario_world) unread_args default_args 0%nat
           eq_refl eq_refl eq_refl eq_refl eq_refl eq_refl).
Defined.

(** X12 at a server whose sponsor has a URL and an empty name. *)
Lemma server_line_needs_sponsor_name_witness :
  srv_sponsorURL server_d = Some "https://sponsor.example" /\
  server_line server_d = "4: D (http://d.example) ".
Proof.
  split; [reflexivity |].
  exact (server_line_needs_sponsor_name server_d (or_intror eq_refl)).
Defined.

(** [urlsplit] refuses the URL of server E: the automatic run fails with
    [ValueError] after the announcement, no call having raised; a listing is
    not affected. *)
Example run_refused_url :
  let r := run_cli refused_world default_args in
  fst r = Raise ValueError /\
  answers raised (snd r) = [] /\
  filter is_measurement (calls (snd r)) = [] /\
  fst (run_cli refused_world list_args) = Ok tt.
Proof. repeat split. Qed.

(** X13 in the world that lists server E after server A. *)
Lemma cli_fails_on_refused_url_witness :
  let t := trace (handle refused_world) (cli url_netloc default_args) 0%nat in
  url_netloc (srv_server server_e) = Raise ValueError /\
  outcome (handle refused_world) (cli url_netloc default_args) 0%nat
    = Raise ValueError /\
  filter is_measurement (calls t) = [].
Proof.
  split; [reflexivity |].
  exact (cli_fails_on_refused_url nat url_netloc nat (handle refused_world)
           default_args 0%nat [server_a] [] server_e ["a.example"]
           ValueError eq_refl eq_refl eq_refl eq_refl eq_refl).
Defined.

End Runs.
